(** * The require resolver of the JS task runner

    A shallow embedding of
    [packages/@n8n/task-runner/src/js-task-runner/require-resolver.ts]:
    the resolver returned by [createRequireResolver] and the wrapper built
    by [createSecureChildProcessWrapper].

    The host runtime is kept abstract: the classifier [isBuiltin], the
    loader behind [require] and the functions of the host (the members of
    the raw [child_process] module among them) are the fields of a [Host]
    record.  JavaScript objects live in a heap, so that object identity,
    allocation and in-place mutation ([delete cleaned[key]]) are explicit. *)

From stdpp Require Import base option list strings gmap pretty.

Local Open Scope string_scope.
Local Open Scope list_scope.

(** ** Values and objects *)

Abbreviation loc := nat.
Abbreviation fnid := nat.

(** A JavaScript value: a primitive, or a reference to a heap object.
    Numbers are the integer-valued ones. *)
Inductive val :=
| VUndefined
| VNull
| VBool (b : bool)
| VNum (n : Z)
| VStr (s : string)
| VRef (l : loc).

(** A heap object, given by its own enumerable properties: an ordinary
    object, an array, or a callable of the host (which carries none). *)
Inductive obj :=
| OPlain (props : gmap string val)
| OArray (elems : list val)
| OFunction (f : fnid).

#[global] Instance val_eq_dec : EqDecision val.
Proof. solve_decision. Defined.

(** What a [throw] carries.  [ExecutionError] and [DisallowedModuleError]
    are the two classes the resolver imports; [TypeError] is what the
    runtime raises when a non-callable is called; [HostError] stands for
    any other value thrown by host code. *)
Inductive exn :=
| ExecutionError (cause : exn)
| DisallowedModuleError (moduleName : string)
| TypeError
| HostError (payload : val).

Inductive result (A : Type) :=
| Ret (a : A)
| Throw (e : exn).
Arguments Ret {A} a.
Arguments Throw {A} e.

(** ** The world of the host and the state of a run *)

(** What host code can read and write: the heap and [process.env]. *)
Record world := World {
  heap : list obj;
  process_env : gmap string val;
}.

(** A run also records, in order, the requests handed to the loader. *)
Record state := State {
  st_world : world;
  st_loads : list string;
}.

(** The collaborators the resolver does not define.  [object_prototype]
    gives the value [Object.prototype] has under a name, [undefined] for a
    name it lacks: an object literal inherits these members. *)
Record Host := {
  isBuiltin : string -> bool;
  host_require : string -> world -> result val * world;
  host_call : fnid -> list val -> world -> result val * world;
  object_prototype : string -> world -> val;
}.

(** ** A state and exception monad *)

Definition M (A : Type) : Type := state -> result A * state.

Definition m_ret {A} (a : A) : M A := fun st => (Ret a, st).

Definition m_throw {A} (e : exn) : M A := fun st => (Throw e, st).

Definition m_bind {A B} (m : M A) (k : A -> M B) : M B :=
  fun st =>
    match m st with
    | (Ret a, st') => k a st'
    | (Throw e, st') => (Throw e, st')
    end.

Notation "'let!' x ':=' m 'in' k" := (m_bind m (fun x => k))
  (at level 10, x name, m at level 100, k at level 200).
Notation "m ';;' k" := (m_bind m (fun _ => k))
  (at level 100, k at level 200, right associativity).

(** Host code runs on the world and leaves the load record alone. *)
Definition lift_host {A} (f : world -> result A * world) : M A :=
  fun st =>
    let '(r, w) := f (st_world st) in
    (r, {| st_world := w; st_loads := st_loads st |}).

Definition with_heap (f : list obj -> list obj) (st : state) : state :=
  {| st_world := {| heap := f (heap (st_world st));
                    process_env := process_env (st_world st) |};
     st_loads := st_loads st |}.

(** ** Primitive operations on objects *)

(** An object literal: a new object at the next free location. *)
Definition alloc (o : obj) : M val :=
  fun st => (Ret (VRef (length (heap (st_world st)))), with_heap (fun h => (h ++ [o])%list) st).

Definition index_props (vs : list val) : gmap string val :=
  list_to_map (imap (fun i v => (pretty i, v)) vs).

Definition char_vals (s : string) : list val :=
  (fun c => VStr (String c EmptyString)) <$> String.list_ascii_of_string s.

(** The own enumerable properties of a value, as object spread [{...v}]
    copies them: nothing for [undefined], [null], booleans, numbers and
    callables; the indexed characters of a string; the indexed elements of
    an array; the properties of an ordinary object. *)
Definition own_props (h : list obj) (v : val) : gmap string val :=
  match v with
  | VStr s => index_props (char_vals s)
  | VRef l =>
      match h !! l with
      | Some (OPlain props) => props
      | Some (OArray elems) => index_props elems
      | _ => ∅
      end
  | _ => ∅
  end.

Definition spread (v : val) : M (gmap string val) :=
  fun st => (Ret (own_props (heap (st_world st)) v), st).

(** Reading [v?.key] and [v.key], for the keys this program reads ([env]
    and the names of the four operations), which no prototype defines: the
    own property, else [undefined]. *)
Definition prop_of (h : list obj) (v : val) (key : string) : val :=
  default VUndefined (own_props h v !! key).

Definition get_prop (v : val) (key : string) : M val :=
  fun st => (Ret (prop_of (heap (st_world st)) v key), st).

Definition update_obj (f : gmap string val -> gmap string val) (o : obj) : obj :=
  match o with
  | OPlain props => OPlain (f props)
  | _ => o
  end.

Definition update_props (v : val) (f : gmap string val -> gmap string val) : M unit :=
  fun st =>
    match v with
    | VRef l => (Ret tt, with_heap (fun h => alter (update_obj f) l h) st)
    | _ => (Ret tt, st)
    end.

(** [delete o[key]] and [o[key] = x] on an ordinary object. *)
Definition delete_prop (v : val) (key : string) : M unit :=
  update_props v (delete key).

Definition set_prop (v : val) (key : string) (x : val) : M unit :=
  update_props v (insert key x).

Definition read_process_env : M (gmap string val) :=
  fun st => (Ret (process_env (st_world st)), st).

(** JavaScript truthiness, as [!env] tests it. *)
Definition truthy (v : val) : bool :=
  match v with
  | VUndefined | VNull => false
  | VBool b => b
  | VNum n => negb (n =? 0)%Z
  | VStr s => negb (String.eqb s "")
  | VRef _ => true
  end.

Fixpoint forEach {A} (xs : list A) (f : A -> M unit) : M unit :=
  match xs with
  | [] => m_ret tt
  | x :: rest => f x;; forEach rest f
  end.

(** The [i]-th actual argument of a call, [undefined] when not supplied. *)
Definition arg (i : nat) (actuals : list val) : val :=
  default VUndefined (actuals !! i).

(** ** The subprocess wrapper *)

Definition SENSITIVE_ENV_VARS : list string :=
  ["ANTHROPIC_API_KEY"; "N8N_RUNNERS_GRANT_TOKEN"; "N8N_RUNNERS_AUTH_TOKEN"].

Definition stripSensitiveEnvVars (env : val) : M val :=
  if negb (truthy env) then
    let! base := read_process_env in
    let! cleaned := alloc (OPlain base) in
    forEach SENSITIVE_ENV_VARS (fun key => delete_prop cleaned key);;
    m_ret cleaned
  else
    let! base := spread env in
    let! cleaned := alloc (OPlain base) in
    forEach SENSITIVE_ENV_VARS (fun key => delete_prop cleaned key);;
    m_ret cleaned.

(** [{ ...options, env: stripSensitiveEnvVars(options?.env) }] *)
Definition secureOptions (options : val) : M val :=
  let! copied := spread options in
  let! fresh := alloc (OPlain copied) in
  let! env := get_prop options "env" in
  let! cleaned := stripSensitiveEnvVars env in
  set_prop fresh "env" cleaned;;
  m_ret fresh.

Section Resolver.

Context (host : Host).

(** Calling a value: a host callable runs, on the arguments alone (the
    receiver is not passed on); anything else is a [TypeError]. *)
Definition call_value (f : val) (actuals : list val) : M val :=
  fun st =>
    match f with
    | VRef l =>
        match heap (st_world st) !! l with
        | Some (OFunction id) => lift_host (host_call host id actuals) st
        | _ => (Throw TypeError, st)
        end
    | _ => (Throw TypeError, st)
    end.

(** [receiver.name(actuals)] *)
Definition call_method (receiver : val) (name : string) (actuals : list val) : M val :=
  let! f := get_prop receiver name in
  call_value f actuals.

Definition spawn (childProcess : val) (actuals : list val) : M val :=
  let command := arg 0 actuals in
  let args := arg 1 actuals in
  let options := arg 2 actuals in
  let! secure := secureOptions options in
  call_method childProcess "spawn" [command; args; secure].

Definition exec (childProcess : val) (actuals : list val) : M val :=
  let command := arg 0 actuals in
  let options := arg 1 actuals in
  let callback := arg 2 actuals in
  let! secure := secureOptions options in
  call_method childProcess "exec" [command; secure; callback].

Definition execFile (childProcess : val) (actuals : list val) : M val :=
  let file := arg 0 actuals in
  let args := arg 1 actuals in
  let options := arg 2 actuals in
  let callback := arg 3 actuals in
  let! secure := secureOptions options in
  call_method childProcess "execFile" [file; args; secure; callback].

Definition fork (childProcess : val) (actuals : list val) : M val :=
  let modulePath := arg 0 actuals in
  let args := arg 1 actuals in
  let options := arg 2 actuals in
  let! secure := secureOptions options in
  call_method childProcess "fork" [modulePath; args; secure].

(** The four operations the wrapper replaces. *)
Inductive spawn_op := Spawn | Exec | ExecFile | Fork.

Definition op_name (op : spawn_op) : string :=
  match op with
  | Spawn => "spawn"
  | Exec => "exec"
  | ExecFile => "execFile"
  | Fork => "fork"
  end.

Definition secure_call (op : spawn_op) : val -> list val -> M val :=
  match op with
  | Spawn => spawn
  | Exec => exec
  | ExecFile => execFile
  | Fork => fork
  end.

(** A member of the object the wrapper returns: a value copied from the
    raw module by the spread, or one of the closures the wrapper creates,
    which closes over [childProcess]. *)
Inductive member :=
| Forwarded (v : val)
| Sanitizing (op : spawn_op) (childProcess : val).

Definition createSecureChildProcessWrapper (childProcess : val) : M (gmap string member) :=
  let! copied := spread childProcess in
  m_ret (<["fork" := Sanitizing Fork childProcess]>
        (<["execFile" := Sanitizing ExecFile childProcess]>
        (<["exec" := Sanitizing Exec childProcess]>
        (<["spawn" := Sanitizing Spawn childProcess]>
        (Forwarded <$> copied))))).

(** The caller's side: [wrapper.name(actuals)].  An own member of the
    wrapper is called; for any other name the wrapper, an object literal,
    inherits what [Object.prototype] has under it. *)
Definition invoke_member (wrapper : gmap string member) (name : string)
    (actuals : list val) : M val :=
  match wrapper !! name with
  | Some (Sanitizing op childProcess) => secure_call op childProcess actuals
  | Some (Forwarded f) => call_value f actuals
  | None => fun st => call_value (object_prototype host name (st_world st)) actuals st
  end.

(** ** The resolver *)

(** [Set<string> | '*'] *)
Inductive allow_list :=
| AllowAll
| AllowSet (names : gset string).

Record RequireResolverOpts := {
  allowedBuiltInModules : allow_list;
  allowedExternalModules : allow_list;
}.

Definition checkIsAllowed (allowList : allow_list) (moduleName : string) : bool :=
  match allowList with
  | AllowAll => true
  | AllowSet names => bool_decide (moduleName ∈ names)
  end.

Definition isAllowed (opts : RequireResolverOpts) (request : string) : bool :=
  if isBuiltin host request
  then checkIsAllowed (allowedBuiltInModules opts) request
  else checkIsAllowed (allowedExternalModules opts) request.

(** [require(request)]: the request is recorded, then the loader runs. *)
Definition require (request : string) : M val :=
  fun st =>
    lift_host (host_require host request)
      {| st_world := st_world st; st_loads := (st_loads st ++ [request])%list |}.

(** What the resolver hands back: the loaded module itself, or the new
    object built by the wrapper.  The new object and its closures are kept
    apart from the values of the host, which therefore never contain
    them. *)
Inductive handle :=
| RawModule (module : val)
| SecureChildProcess (members : gmap string member).

Definition createRequireResolver (opts : RequireResolverOpts) (request : string) : M handle :=
  if negb (isAllowed opts request) then
    let error := DisallowedModuleError request in
    m_throw (ExecutionError error)
  else
    let! module := require request in
    if String.eqb request "child_process" then
      let! wrapper := createSecureChildProcessWrapper module in
      m_ret (SecureChildProcess wrapper)
    else
      m_ret (RawModule module).

End Resolver.

(** ** Auxiliary notions for the statements *)

(** The content the three [delete]s leave of a mapping. *)
Definition without_sensitive (props : gmap string val) : gmap string val :=
  foldl (fun m key => delete key m) props SENSITIVE_ENV_VARS.

(** The mapping [stripSensitiveEnvVars] starts from: the own properties of a
    truthy [env], the ambient environment otherwise. *)
Definition env_base (w : world) (env : val) : gmap string val :=
  if truthy env then own_props (heap w) env else process_env w.

(** The state once [objs] have been allocated, in that order. *)
Definition grown (objs : list obj) (st : state) : state :=
  with_heap (fun h => (h ++ objs)%list) st.

(** A value is live in a heap when it is not a reference past its end. *)
Definition live (h : list obj) (v : val) : bool :=
  match v with
  | VRef l => bool_decide (l < length h)
  | _ => true
  end.

(** The parameter list of each wrapped operation: where [options] sits,
    and the arguments the body hands to the raw operation once [options]
    has been replaced by [secure]. *)
Definition options_of (op : spawn_op) (actuals : list val) : val :=
  match op with
  | Spawn | ExecFile | Fork => arg 2 actuals
  | Exec => arg 1 actuals
  end.

Definition delegated_args (op : spawn_op) (actuals : list val) (secure : val) : list val :=
  match op with
  | Spawn | Fork => [arg 0 actuals; arg 1 actuals; secure]
  | Exec => [arg 0 actuals; secure; arg 2 actuals]
  | ExecFile => [arg 0 actuals; arg 1 actuals; secure; arg 3 actuals]
  end.

(** A request passes the gate: [isAllowed] holds, the request is handed to
    the loader, and the resolver throws only what the loader throws. *)
Definition admitted (host : Host) (opts : RequireResolverOpts) (request : string)
    (st : state) : Prop :=
  isAllowed host opts request = true
  ∧ st_loads (createRequireResolver host opts request st).2 = st_loads st ++ [request]
  ∧ (∀ e, (createRequireResolver host opts request st).1 = Throw e →
          (host_require host request (st_world st)).1 = Throw e).

(** The raw module [childProcess] has a member [name] that is the host
    callable [f]. *)
Definition raw_operation (h : list obj) (childProcess : val) (name : string) (f : fnid) : Prop :=
  ∃ lf, prop_of h childProcess name = VRef lf ∧ h !! lf = Some (OFunction f).

Definition callable (h : list obj) (v : val) : bool :=
  match v with
  | VRef l => match h !! l with Some (OFunction _) => true | _ => false end
  | _ => false
  end.

(** Transparency for callbacks, in every invocation shape: whenever a
    wrapped call amounts to the raw call [f(args)], each callable the
    caller passed is among [args]. *)
Definition forwards_callbacks (host : Host) (op : spawn_op) (childProcess : val)
    (actuals : list val) (st : state) : Prop :=
  ∀ callback f args st',
    callback ∈ actuals →
    callable (heap (st_world st)) callback = true →
    secure_call host op childProcess actuals st
    = lift_host (host_call host f args) st' →
    callback ∈ args.

(** The mapping stored under [env] by [secureOptions options]: the base is
    read after the copy of [options] has been allocated. *)
Definition delegated_env (w : world) (options : val) : gmap string val :=
  let h1 := (heap w ++ [OPlain (own_props (heap w) options)])%list in
  without_sensitive
    (env_base {| heap := h1; process_env := process_env w |} (prop_of h1 options "env")).

(** The two objects a wrapped call allocates: the options handed to the raw
    operation, whose [env] refers to the second, the cleaned mapping. *)
Definition secure_objects (w : world) (options : val) : list obj :=
  [OPlain (<["env" := VRef (S (length (heap w)))]> (own_props (heap w) options));
   OPlain (delegated_env w options)].

(** ** A concrete host

    A small world to run the resolver in: the raw [child_process] module
    with five operations, a callback, an options object with an explicit
    [env], and a host whose operations hand back an array recording the
    function called and the arguments received.  Its [Object.prototype] is
    taken without members. *)

Definition demo_heap : list obj :=
  [ OFunction 0;   (* 0: spawn *)
    OFunction 1;   (* 1: exec *)
    OFunction 2;   (* 2: execFile *)
    OFunction 3;   (* 3: fork *)
    OFunction 4;   (* 4: execSync *)
    OPlain (<["spawn" := VRef 0]> (<["exec" := VRef 1]> (<["execFile" := VRef 2]>
           (<["fork" := VRef 3]> (<["execSync" := VRef 4]> ∅)))));   (* 5: child_process *)
    OFunction 5;   (* 6: a callback of the caller *)
    OPlain (<["SECRET" := VStr "x"]> (<["ANTHROPIC_API_KEY" := VStr "sk-caller"]> ∅));   (* 7 *)
    OPlain (<["cwd" := VStr "/tmp"]> (<["env" := VRef 7]> ∅));   (* 8: options *)
    OPlain ∅;   (* 9: the fs module *)
    OPlain (<["HOME" := VStr "/home/runner"]> ∅)   (* 10: a mapping without secrets *)
  ].

Definition demo_env : gmap string val :=
  <["PATH" := VStr "/usr/bin"]> (<["ANTHROPIC_API_KEY" := VStr "sk-ambient"]>
  (<["N8N_RUNNERS_GRANT_TOKEN" := VStr "grant"]> ∅)).

Definition demo_state : state :=
  {| st_world := {| heap := demo_heap; process_env := demo_env |}; st_loads := [] |}.

Definition demo_host : Host :=
  {| isBuiltin := fun name =>
       bool_decide (name ∈ ["fs"; "net"; "child_process"; "node:child_process"]);
     host_require := fun name w =>
       if String.eqb name "child_process" then (Ret (VRef 5), w)
       else if String.eqb name "fs" then (Ret (VRef 9), w)
       else (Throw (HostError (VStr "MODULE_NOT_FOUND")), w);
     host_call := fun id actuals w =>
       (Ret (VRef (length (heap w))),
        {| heap := (heap w ++ [OArray (VNum (Z.of_nat id) :: actuals)])%list;
           process_env := process_env w |});
     object_prototype := fun _ _ => VUndefined |}.

(** The concrete state with one more object, options that carry a working
    directory and no [env]. *)
Definition demo_cwd_state : state :=
  {| st_world := {| heap := demo_heap ++ [OPlain (<["cwd" := VStr "/tmp"]> ∅)];   (* 11 *)
                    process_env := demo_env |};
     st_loads := [] |}.

Definition demo_opts : RequireResolverOpts :=
  {| allowedBuiltInModules := AllowSet {["fs"]};
     allowedExternalModules := AllowSet {["lodash"]} |}.

Definition demo_wildcard_opts : RequireResolverOpts :=
  {| allowedBuiltInModules := AllowAll;
     allowedExternalModules := AllowSet ∅ |}.

(** ** Notions for the further properties *)

(** The caller over time: the requests resolved one after the other, each
    in the state the previous one left, whatever its outcome. *)
Fixpoint resolve_each (host : Host) (opts : RequireResolverOpts)
    (requests : list string) (st : state) : state :=
  match requests with
  | [] => st
  | request :: rest =>
      resolve_each host opts rest (createRequireResolver host opts request st).2
  end.

(** One allow-set permits at least what another does. *)
Definition allow_le (a b : allow_list) : Prop :=
  match a, b with
  | _, AllowAll => True
  | AllowAll, AllowSet _ => False
  | AllowSet names, AllowSet names' => names ⊆ names'
  end.

(** * Properties *)

(** ** What sanitizing computes *)

Lemma lookup_foldl_delete (keys : list string) (m : gmap string val) (k : string) :
  foldl (fun m key => delete key m) m keys !! k
  = if bool_decide (k ∈ keys) then None else m !! k.
Proof.
  revert m. induction keys as [|key keys IH]; intros m; cbn [foldl].
  - rewrite bool_decide_eq_false_2; [done|]. apply not_elem_of_nil.
  - rewrite IH. destruct (decide (k = key)) as [->|Hne].
    + rewrite lookup_delete_eq.
      rewrite (bool_decide_eq_true_2 (key ∈ key :: keys)); [|apply list_elem_of_here].
      by destruct (bool_decide (key ∈ keys)).
    + rewrite lookup_delete_ne; [|done].
      rewrite (bool_decide_ext (k ∈ key :: keys) (k ∈ keys)); [done|].
      rewrite elem_of_cons. split; [by intros [?|?]|by right].
Qed.

Lemma lookup_without_sensitive (m : gmap string val) (k : string) :
  without_sensitive m !! k
  = if bool_decide (k ∈ SENSITIVE_ENV_VARS) then None else m !! k.
Proof. apply lookup_foldl_delete. Qed.

Lemma without_sensitive_clean (m : gmap string val) :
  (∀ k, k ∈ SENSITIVE_ENV_VARS → m !! k = None) → without_sensitive m = m.
Proof.
  intros Hclean. apply map_eq. intros k. rewrite lookup_without_sensitive.
  case_bool_decide; [by rewrite Hclean|done].
Qed.

Lemma forEach_delete_fresh (keys : list string) (st : state) (m : gmap string val) :
  forEach keys (fun key => delete_prop (VRef (length (heap (st_world st)))) key)
    (grown [OPlain m] st)
  = (Ret tt, grown [OPlain (foldl (fun m key => delete key m) m keys)] st).
Proof.
  revert m. induction keys as [|key keys IH]; intros m; [done|].
  cbn [forEach]. unfold m_bind at 1.
  replace (delete_prop (VRef (length (heap (st_world st)))) key (grown [OPlain m] st))
    with (Ret tt, grown [OPlain (delete key m)] st); [apply IH|].
  destruct st as [[h pe] ld]. unfold delete_prop, update_props, grown, with_heap. cbn.
  do 3 f_equal.
  by rewrite (alter_app_r_alt _ h [OPlain m] (length h)), Nat.sub_diag.
Qed.

Lemma stripSensitiveEnvVars_spec (env : val) (st : state) :
  stripSensitiveEnvVars env st
  = (Ret (VRef (length (heap (st_world st)))),
     grown [OPlain (without_sensitive (env_base (st_world st) env))] st).
Proof.
  unfold stripSensitiveEnvVars, env_base.
  destruct (truthy env); cbn [negb].
  - unfold m_bind at 1. unfold spread at 1. unfold m_bind at 1. unfold alloc at 1.
    unfold m_bind at 1. fold (grown [OPlain (own_props (heap (st_world st)) env)] st).
    by rewrite forEach_delete_fresh.
  - unfold m_bind at 1. unfold read_process_env at 1. unfold m_bind at 1. unfold alloc at 1.
    unfold m_bind at 1. fold (grown [OPlain (process_env (st_world st))] st).
    by rewrite forEach_delete_fresh.
Qed.

Lemma own_props_grown (h : list obj) (objs : list obj) (v : val) :
  live h v = true → own_props (h ++ objs) v = own_props h v.
Proof.
  destruct v as [| | | | |l]; try done. cbn.
  intros Hl%bool_decide_eq_true_1. by rewrite lookup_app_l.
Qed.

Lemma prop_of_grown (h : list obj) (objs : list obj) (v : val) (key : string) :
  live h v = true → prop_of (h ++ objs) v key = prop_of h v key.
Proof. intros Hl. unfold prop_of. by rewrite own_props_grown. Qed.

(** A value with a property that is a reference is live. *)
Lemma prop_of_ref_live (h : list obj) (v : val) (key : string) (l : loc) :
  prop_of h v key = VRef l → live h v = true.
Proof.
  unfold prop_of. destruct v as [| |b|n|s|l0]; cbn; try done.
  destruct (h !! l0) as [o|] eqn:Hl0.
  - intros _. apply bool_decide_eq_true_2. by eapply lookup_lt_Some.
  - by rewrite lookup_empty.
Qed.

(** Allocating the copy of [v] does not change the properties of [v]. *)
Lemma own_props_copy (h : list obj) (v : val) :
  own_props (h ++ [OPlain (own_props h v)]) v = own_props h v.
Proof.
  destruct v as [| | | | |l]; try done. cbn.
  destruct (h !! l) as [o|] eqn:Hl.
  - by rewrite (lookup_app_l h _ l), Hl by (by eapply lookup_lt_Some).
  - apply lookup_ge_None_1 in Hl.
    rewrite (lookup_app_r h _ l) by done.
    by destruct (l - length h) as [|[|n]].
Qed.

(** The base of the delegated mapping, read in the heap of the call. *)
Lemma delegated_env_falsy (w : world) (options : val) :
  truthy (prop_of (heap w) options "env") = false →
  delegated_env w options = without_sensitive (process_env w).
Proof.
  intros Hfalsy. unfold delegated_env, prop_of. cbn zeta.
  rewrite own_props_copy. fold (prop_of (heap w) options "env").
  unfold env_base. by rewrite Hfalsy.
Qed.

Lemma delegated_env_mapping (w : world) (options : val) (l : loc)
    (supplied : gmap string val) :
  prop_of (heap w) options "env" = VRef l →
  heap w !! l = Some (OPlain supplied) →
  delegated_env w options = without_sensitive supplied.
Proof.
  intros Henv Hl. unfold delegated_env, prop_of. cbn zeta.
  rewrite own_props_copy. fold (prop_of (heap w) options "env").
  rewrite Henv. unfold env_base. cbn [truthy heap own_props].
  by rewrite (lookup_app_l (heap w) _ l), Hl by (by eapply lookup_lt_Some).
Qed.

Lemma delegated_env_sensitive (w : world) (options : val) (k : string) :
  k ∈ SENSITIVE_ENV_VARS → delegated_env w options !! k = None.
Proof.
  intros Hk. unfold delegated_env. cbn zeta. rewrite lookup_without_sensitive.
  by rewrite bool_decide_eq_true_2.
Qed.

Lemma secureOptions_spec (options : val) (st : state) :
  secureOptions options st
  = (Ret (VRef (length (heap (st_world st)))),
     grown (secure_objects (st_world st) options) st).
Proof.
  unfold secureOptions.
  unfold m_bind at 1. unfold spread at 1.
  unfold m_bind at 1. unfold alloc at 1.
  unfold m_bind at 1. unfold get_prop at 1.
  unfold m_bind at 1. rewrite stripSensitiveEnvVars_spec.
  unfold m_bind at 1. unfold m_ret.
  destruct st as [[h pe] ld].
  unfold set_prop, update_props, grown, with_heap, secure_objects, delegated_env. cbn.
  do 3 f_equal.
  rewrite length_app. cbn [length]. rewrite Nat.add_1_r.
  rewrite <-(assoc_L app). cbn [app].
  by rewrite (alter_app_r_alt _ h _ (length h)), Nat.sub_diag.
Qed.

(** ** The wrapped operations *)

Section Wrapper.

Context (host : Host).

(** Each wrapped operation allocates its two objects and then calls the raw
    member of the same name with the options replaced. *)
Lemma secure_call_spec (op : spawn_op) (childProcess : val) (actuals : list val) (st : state) :
  secure_call host op childProcess actuals st
  = call_method host childProcess (op_name op)
      (delegated_args op actuals (VRef (length (heap (st_world st)))))
      (grown (secure_objects (st_world st) (options_of op actuals)) st).
Proof.
  destruct op; cbn [secure_call];
    unfold spawn, exec, execFile, fork;
    unfold m_bind at 1; by rewrite secureOptions_spec.
Qed.

Lemma call_method_raw (childProcess : val) (name : string) (args : list val)
    (objs : list obj) (st : state) (lf : loc) (f : fnid) :
  prop_of (heap (st_world st)) childProcess name = VRef lf →
  heap (st_world st) !! lf = Some (OFunction f) →
  call_method host childProcess name args (grown objs st)
  = lift_host (host_call host f args) (grown objs st).
Proof.
  intros Hprop Hfn. pose proof (prop_of_ref_live _ _ _ _ Hprop) as Hlive.
  unfold call_method, m_bind, get_prop, call_value.
  destruct st as [[h pe] ld]. cbn in *.
  rewrite prop_of_grown, Hprop by done.
  rewrite (lookup_app_l h objs lf) by (by eapply lookup_lt_Some).
  by rewrite Hfn.
Qed.

End Wrapper.

(** ** The capability gate *)

Section Gate.

Context (host : Host).

Lemma require_spec (request : string) (st : state) :
  require host request st
  = let '(r, w) := host_require host request (st_world st) in
    (r, {| st_world := w; st_loads := st_loads st ++ [request] |}).
Proof. done. Qed.

Lemma createSecureChildProcessWrapper_state (childProcess : val) (st : state) :
  ∃ wrapper, createSecureChildProcessWrapper childProcess st = (Ret wrapper, st)
    ∧ (∀ op, wrapper !! op_name op = Some (Sanitizing op childProcess))
    ∧ (∀ name, (∀ op, name ≠ op_name op) →
         wrapper !! name = Forwarded <$> own_props (heap (st_world st)) childProcess !! name).
Proof.
  eexists. split; [reflexivity|]. split.
  - by intros []; cbn [op_name]; simplify_map_eq.
  - intros name Hname.
    pose proof (Hname Spawn). pose proof (Hname Exec).
    pose proof (Hname ExecFile). pose proof (Hname Fork). cbn [op_name] in *.
    rewrite !lookup_insert_ne by done. by rewrite lookup_fmap.
Qed.

Lemma createRequireResolver_loaded (opts : RequireResolverOpts) (request : string)
    (st : state) (module : val) (w : world) :
  isAllowed host opts request = true →
  host_require host request (st_world st) = (Ret module, w) →
  createRequireResolver host opts request st
  = (if String.eqb request "child_process"
     then let! wrapper := createSecureChildProcessWrapper module in
          m_ret (SecureChildProcess wrapper)
     else m_ret (RawModule module))
      {| st_world := w; st_loads := st_loads st ++ [request] |}.
Proof.
  intros Hadm Hload. unfold createRequireResolver. rewrite Hadm. cbn [negb].
  unfold m_bind at 1. by rewrite require_spec, Hload.
Qed.

(** A member other than the four is the raw module's own value, so calling
    it on the wrapper is calling the raw member on the same arguments. *)
Lemma forwarded_member_call (childProcess : val) (name : string) (v : val)
    (actuals : list val) (st st1 : state) :
  (∀ op, name ≠ op_name op) →
  own_props (heap (st_world st)) childProcess !! name = Some v →
  ∃ wrapper, createSecureChildProcessWrapper childProcess st = (Ret wrapper, st)
    ∧ invoke_member host wrapper name actuals st1 = call_value host v actuals st1.
Proof.
  intros Hname Hv.
  destruct (createSecureChildProcessWrapper_state childProcess st)
    as (wrapper & Hrun & _ & Hrest).
  exists wrapper. split; [done|]. unfold invoke_member.
  by rewrite (Hrest name Hname), Hv.
Qed.

(** C3. A request that the applicable allow-set, an explicit set, does not
    contain makes the resolver throw [ExecutionError] wrapping a
    [DisallowedModuleError] that carries the request; the state is left as
    it was, so nothing was handed to the loader. *)
Theorem resolve_denied_throws_without_load (opts : RequireResolverOpts)
    (request : string) (names : gset string) (st : state) :
  (if isBuiltin host request
   then allowedBuiltInModules opts else allowedExternalModules opts) = AllowSet names →
  request ∉ names →
  createRequireResolver host opts request st
  = (Throw (ExecutionError (DisallowedModuleError request)), st)
  ∧ st_loads (createRequireResolver host opts request st).2 = st_loads st.
Proof.
  intros Hlist Hnot.
  assert (isAllowed host opts request = false) as Hdenied.
  { unfold isAllowed. destruct (isBuiltin host request); rewrite Hlist; cbn;
      by apply bool_decide_eq_false_2. }
  unfold createRequireResolver. by rewrite Hdenied.
Qed.

(** C5. A request classified as built-in is admitted exactly when the
    built-in allow-set admits it, and the resolver behaves the same
    whatever the external allow-set is; symmetrically for a request
    classified as external. *)
Theorem admission_uses_matching_allow_list (builtIn external other : allow_list)
    (request : string) (st : state) :
  (isBuiltin host request = true →
     isAllowed host {| allowedBuiltInModules := builtIn;
                       allowedExternalModules := external |} request
     = checkIsAllowed builtIn request
     ∧ createRequireResolver host {| allowedBuiltInModules := builtIn;
                                     allowedExternalModules := external |} request st
       = createRequireResolver host {| allowedBuiltInModules := builtIn;
                                       allowedExternalModules := other |} request st)
  ∧ (isBuiltin host request = false →
     isAllowed host {| allowedBuiltInModules := builtIn;
                       allowedExternalModules := external |} request
     = checkIsAllowed external request
     ∧ createRequireResolver host {| allowedBuiltInModules := builtIn;
                                     allowedExternalModules := external |} request st
       = createRequireResolver host {| allowedBuiltInModules := other;
                                       allowedExternalModules := external |} request st).
Proof.
  split; intros Hclass; unfold createRequireResolver, isAllowed; cbn;
    by rewrite Hclass.
Qed.

(** C7. With the wildcard as the allow-set of its classification, every
    request is admitted, whatever the other allow-set is: the request is
    handed to the loader, and the resolver's outcome is the loader's. *)
Theorem wildcard_admits_every_name (other : allow_list) (request : string) (st : state) :
  (isBuiltin host request = true →
     admitted host {| allowedBuiltInModules := AllowAll;
                      allowedExternalModules := other |} request st)
  ∧ (isBuiltin host request = false →
     admitted host {| allowedBuiltInModules := other;
                      allowedExternalModules := AllowAll |} request st).
Proof.
  unfold admitted.
  split; intros Hclass; unfold createRequireResolver, isAllowed; cbn; rewrite Hclass; cbn;
    (split; [done|]); unfold m_bind; rewrite require_spec;
    destruct (host_require host request (st_world st)) as [[module|e'] w]; cbn;
    destruct (String.eqb request "child_process"); cbn;
    (split; [done|]); intros e0 He0; by simplify_eq.
Qed.

(** C8. For an admitted request, a failure of the loader comes out of the
    resolver as it is, in the state the loader left; and whatever the
    resolver throws is either the denial, for a request that is not
    admitted, or what the loader threw. *)
Theorem load_failure_propagates_unchanged (opts : RequireResolverOpts)
    (request : string) (st : state) :
  (∀ e w, isAllowed host opts request = true →
     host_require host request (st_world st) = (Throw e, w) →
     createRequireResolver host opts request st
     = (Throw e, {| st_world := w; st_loads := st_loads st ++ [request] |}))
  ∧ (∀ e st', createRequireResolver host opts request st = (Throw e, st') →
       (isAllowed host opts request = false
        ∧ e = ExecutionError (DisallowedModuleError request))
       ∨ (isAllowed host opts request = true
          ∧ ∃ w, host_require host request (st_world st) = (Throw e, w))).
Proof.
  split.
  - intros e w Hadm Hload. unfold createRequireResolver. rewrite Hadm. cbn [negb].
    unfold m_bind. rewrite require_spec, Hload. done.
  - intros e st'. unfold createRequireResolver.
    destruct (isAllowed host opts request); cbn [negb].
    + unfold m_bind. rewrite require_spec.
      destruct (host_require host request (st_world st)) as [[module|e'] w] eqn:Hload.
      * destruct (String.eqb request "child_process"); cbn; discriminate.
      * intros [= -> <-]. right. eauto.
    + intros [= <- <-]. by left.
Qed.

(** C4. For an admitted request that loads: when the request is exactly
    [child_process], the handle is a new object whose members [spawn],
    [exec], [execFile] and [fork] are the closures made by the wrapper, not
    the raw module's members, and whose every other member is the raw
    module's value under the same name; for any other request the handle
    is the loaded module itself. *)
Theorem only_child_process_is_wrapped (opts : RequireResolverOpts)
    (request : string) (st : state) (module : val) (w : world) :
  isAllowed host opts request = true →
  host_require host request (st_world st) = (Ret module, w) →
  (request = "child_process" →
     ∃ wrapper,
       createRequireResolver host opts request st
       = (Ret (SecureChildProcess wrapper),
          {| st_world := w; st_loads := st_loads st ++ [request] |})
       ∧ (∀ op, wrapper !! op_name op = Some (Sanitizing op module)
                ∧ wrapper !! op_name op ≠ Forwarded <$> own_props (heap w) module !! op_name op)
       ∧ (∀ name, (∀ op, name ≠ op_name op) →
            wrapper !! name = Forwarded <$> own_props (heap w) module !! name))
  ∧ (request ≠ "child_process" →
     createRequireResolver host opts request st
     = (Ret (RawModule module),
        {| st_world := w; st_loads := st_loads st ++ [request] |})).
Proof.
  intros Hadm Hload. rewrite (createRequireResolver_loaded _ _ _ _ _ Hadm Hload).
  set (st' := {| st_world := w; st_loads := st_loads st ++ [request] |}). split.
  - intros ->. cbn [String.eqb Ascii.eqb Bool.eqb].
    destruct (createSecureChildProcessWrapper_state module st') as (wrapper & Hrun & Hops & Hrest).
    exists wrapper. unfold m_bind. rewrite Hrun. split; [reflexivity|]. split; [|exact Hrest].
    intros op. rewrite Hops. split; [done|].
    by destruct (own_props (heap w) module !! op_name op).
  - intros Hne. apply String.eqb_neq in Hne. rewrite Hne. reflexivity.
Qed.

End Gate.

(** ** The sanitizing operations *)

Section Sanitizing.

Context (host : Host).

Lemma secure_call_raw (op : spawn_op) (childProcess : val) (actuals : list val)
    (st : state) (f : fnid) :
  raw_operation (heap (st_world st)) childProcess (op_name op) f →
  secure_call host op childProcess actuals st
  = lift_host
      (host_call host f (delegated_args op actuals (VRef (length (heap (st_world st))))))
      (grown (secure_objects (st_world st) (options_of op actuals)) st).
Proof.
  intros (lf & Hprop & Hfn). rewrite secure_call_spec.
  by eapply call_method_raw.
Qed.

Lemma grown_pair_lookup (a b : obj) (st : state) :
  heap (st_world (grown [a; b] st)) !! length (heap (st_world st)) = Some a
  ∧ heap (st_world (grown [a; b] st)) !! S (length (heap (st_world st))) = Some b.
Proof.
  destruct st as [[h pe] ld]. cbn. split.
  - by rewrite (lookup_app_r h [a; b] (length h)), Nat.sub_diag by lia.
  - rewrite (lookup_app_r h [a; b] (S (length h))) by lia.
    by replace (S (length h) - length h) with 1 by lia.
Qed.

Lemma grown_preserves (objs : list obj) (st : state) (i : loc) (o : obj) :
  heap (st_world st) !! i = Some o → heap (st_world (grown objs st)) !! i = Some o.
Proof.
  destruct st as [[h pe] ld]. cbn. intros Hi.
  by rewrite (lookup_app_l h objs i) by (by eapply lookup_lt_Some).
Qed.

(** X12. Whatever the caller passes, the object a wrapped operation hands to
    the raw operation in the declared options position has an [env] entry: a
    reference to a mapping with none of the three sensitive keys, which is
    the ambient environment without those keys when the options carry no
    truthy [env] (no options at all included). *)
Theorem delegated_options_always_carry_env (op : spawn_op) (childProcess : val)
    (actuals : list val) (st : state) (f : fnid) :
  raw_operation (heap (st_world st)) childProcess (op_name op) f →
  ∃ lo le props cleaned st',
    secure_call host op childProcess actuals st
    = lift_host (host_call host f (delegated_args op actuals (VRef lo))) st'
    ∧ heap (st_world st') !! lo = Some (OPlain props)
    ∧ props !! "env" = Some (VRef le)
    ∧ heap (st_world st') !! le = Some (OPlain cleaned)
    ∧ (∀ k, k ∈ SENSITIVE_ENV_VARS → cleaned !! k = None)
    ∧ (truthy (prop_of (heap (st_world st)) (options_of op actuals) "env") = false →
       ∀ k, cleaned !! k
            = if bool_decide (k ∈ SENSITIVE_ENV_VARS) then None
              else process_env (st_world st) !! k).
Proof.
  intros Hraw. eexists _, _, _, _, _.
  split; [by apply secure_call_raw|].
  split; [apply grown_pair_lookup|].
  split; [apply lookup_insert_eq|].
  split; [apply grown_pair_lookup|].
  split; [intros k Hk; by apply delegated_env_sensitive|].
  intros Hfalsy k. rewrite delegated_env_falsy by done.
  apply lookup_without_sensitive.
Qed.

(** X11. For each of the four operations, the mapping under [env] of the
    object handed to the raw operation in the declared options position,
    where [options] is the argument in that position, is: when [options?.env] is
    [undefined], the ambient environment without the three sensitive keys;
    when [options.env] is a mapping, that mapping without the three
    sensitive keys.  Every other key keeps its value. *)
Theorem delegated_env_is_base_minus_secrets (op : spawn_op) (childProcess : val)
    (actuals : list val) (st : state) (f : fnid) :
  raw_operation (heap (st_world st)) childProcess (op_name op) f →
  ∃ lo le props cleaned st',
    secure_call host op childProcess actuals st
    = lift_host (host_call host f (delegated_args op actuals (VRef lo))) st'
    ∧ heap (st_world st') !! lo = Some (OPlain props)
    ∧ props !! "env" = Some (VRef le)
    ∧ heap (st_world st') !! le = Some (OPlain cleaned)
    ∧ (prop_of (heap (st_world st)) (options_of op actuals) "env" = VUndefined →
       ∀ k, cleaned !! k
            = if bool_decide (k ∈ SENSITIVE_ENV_VARS) then None
              else process_env (st_world st) !! k)
    ∧ (∀ l supplied,
         prop_of (heap (st_world st)) (options_of op actuals) "env" = VRef l →
         heap (st_world st) !! l = Some (OPlain supplied) →
         ∀ k, cleaned !! k
              = if bool_decide (k ∈ SENSITIVE_ENV_VARS) then None else supplied !! k).
Proof.
  intros Hraw. eexists _, _, _, _, _.
  split; [by apply secure_call_raw|].
  split; [apply grown_pair_lookup|].
  split; [apply lookup_insert_eq|].
  split; [apply grown_pair_lookup|].
  split.
  - intros Henv k. rewrite delegated_env_falsy by (by rewrite Henv).
    apply lookup_without_sensitive.
  - intros l supplied Henv Hl k. rewrite (delegated_env_mapping _ _ _ _ Henv Hl).
    apply lookup_without_sensitive.
Qed.

(** X10. Each wrapped operation forwards the arguments in the
    positions of its declared parameters: [spawn] and [fork] pass the first
    two and the new options, [exec] passes the first, the new options and
    the third, [execFile] passes the first two, the new options and the
    fourth.  The new options hold every own property of the value in the
    options position other than [env], unchanged; no object the caller
    passed is modified; the outcome is the raw operation's. *)
Theorem arguments_forwarded_by_position (op : spawn_op) (childProcess : val)
    (actuals : list val) (st : state) (f : fnid) :
  raw_operation (heap (st_world st)) childProcess (op_name op) f →
  ∃ lo props st',
    secure_call host op childProcess actuals st
    = lift_host (host_call host f (delegated_args op actuals (VRef lo))) st'
    ∧ delegated_args op actuals (VRef lo)
      = match op with
        | Spawn | Fork => [arg 0 actuals; arg 1 actuals; VRef lo]
        | Exec => [arg 0 actuals; VRef lo; arg 2 actuals]
        | ExecFile => [arg 0 actuals; arg 1 actuals; VRef lo; arg 3 actuals]
        end
    ∧ heap (st_world st) !! lo = None
    ∧ heap (st_world st') !! lo = Some (OPlain props)
    ∧ (∀ key, key ≠ "env" →
         props !! key = own_props (heap (st_world st)) (options_of op actuals) !! key)
    ∧ (∀ i o, heap (st_world st) !! i = Some o → heap (st_world st') !! i = Some o)
    ∧ process_env (st_world st') = process_env (st_world st).
Proof.
  intros Hraw. eexists _, _, _.
  split; [by apply secure_call_raw|].
  split; [by destruct op|].
  split; [by apply lookup_ge_None_2|].
  split; [apply grown_pair_lookup|].
  split; [intros key Hkey; by apply lookup_insert_ne|].
  split; [intros i o; apply grown_preserves|].
  by destruct st as [[h pe] ld].
Qed.

End Sanitizing.

(** C9. Sanitizing allocates a new mapping and changes no object that
    existed, the input included; and for an input mapping with none of the
    three sensitive keys the new mapping has the content of the input. *)
Theorem sanitizing_is_identity_on_clean_input (st : state) :
  (∀ env, ∃ l' st',
     stripSensitiveEnvVars env st = (Ret (VRef l'), st')
     ∧ heap (st_world st) !! l' = None
     ∧ (∀ i o, heap (st_world st) !! i = Some o → heap (st_world st') !! i = Some o)
     ∧ process_env (st_world st') = process_env (st_world st))
  ∧ (∀ l input,
       heap (st_world st) !! l = Some (OPlain input) →
       Forall (fun key => input !! key = None) SENSITIVE_ENV_VARS →
       ∃ l' st',
         stripSensitiveEnvVars (VRef l) st = (Ret (VRef l'), st')
         ∧ l' ≠ l
         ∧ heap (st_world st') !! l' = Some (OPlain input)
         ∧ heap (st_world st') !! l = Some (OPlain input)).
Proof.
  split.
  - intros env. eexists _, _. split; [apply stripSensitiveEnvVars_spec|].
    split; [by apply lookup_ge_None_2|]. split.
    + intros i o. apply grown_preserves.
    + by destruct st as [[h pe] ld].
  - intros l input Hl Hclean. eexists _, _.
    split; [apply stripSensitiveEnvVars_spec|].
    split; [apply lookup_lt_Some in Hl; lia|]. split.
    + replace (env_base (st_world st) (VRef l)) with input
        by (unfold env_base, own_props; cbn [truthy]; by rewrite Hl).
      rewrite without_sensitive_clean.
      * destruct st as [[h pe] ld]. cbn.
        by rewrite (lookup_app_r h _ (length h)), Nat.sub_diag by lia.
      * intros k Hk. by eapply Forall_forall in Hclean.
    + by apply grown_preserves.
Qed.

(** ** The theorems at the concrete host *)

(** [spawn("ls", options)]: the options object sits where [args] is
    declared, so it is forwarded in the second position and the options
    the raw [spawn] receives third are built from [undefined]. *)
Example spawn_options_in_args_position :
  ∃ st',
    secure_call demo_host Spawn (VRef 5) [VStr "ls"; VRef 8] demo_state
    = lift_host (host_call demo_host 0 [VStr "ls"; VRef 8; VRef 11]) st'
    ∧ own_props (heap (st_world st')) (VRef 11) = {["env" := VRef 12]}
    ∧ own_props (heap (st_world st')) (VRef 12) = {["PATH" := VStr "/usr/bin"]}.
Proof.
  eexists. split; [|split].
  - apply (secure_call_raw demo_host Spawn (VRef 5) [VStr "ls"; VRef 8] demo_state 0).
    eexists. split; vm_compute; reflexivity.
  - vm_compute. reflexivity.
  - vm_compute. reflexivity.
Qed.

Lemma demo_raw_operation (op : spawn_op) :
  raw_operation demo_heap (VRef 5) (op_name op)
    match op with Spawn => 0 | Exec => 1 | ExecFile => 2 | Fork => 3 end.
Proof. destruct op; eexists; split; vm_compute; reflexivity. Defined.

Lemma resolve_denied_throws_without_load_witness :
  createRequireResolver demo_host demo_opts "net" demo_state
  = (Throw (ExecutionError (DisallowedModuleError "net")), demo_state)
  ∧ st_loads (createRequireResolver demo_host demo_opts "net" demo_state).2 = [].
Proof.
  apply (resolve_denied_throws_without_load demo_host demo_opts "net" {["fs"]} demo_state).
  - reflexivity.
  - apply (bool_decide_eq_false_1 _). vm_compute. reflexivity.
Defined.

Lemma admission_uses_matching_allow_list_witness :
  (isAllowed demo_host demo_opts "fs" = checkIsAllowed (AllowSet {["fs"]}) "fs"
   ∧ createRequireResolver demo_host demo_opts "fs" demo_state
     = createRequireResolver demo_host
         {| allowedBuiltInModules := AllowSet {["fs"]};
            allowedExternalModules := AllowAll |} "fs" demo_state)
  ∧ (isAllowed demo_host demo_opts "lodash" = checkIsAllowed (AllowSet {["lodash"]}) "lodash"
     ∧ createRequireResolver demo_host demo_opts "lodash" demo_state
       = createRequireResolver demo_host
           {| allowedBuiltInModules := AllowAll;
              allowedExternalModules := AllowSet {["lodash"]} |} "lodash" demo_state).
Proof.
  split.
  - apply (proj1 (admission_uses_matching_allow_list demo_host
                    (AllowSet {["fs"]}) (AllowSet {["lodash"]}) AllowAll "fs" demo_state)).
    reflexivity.
  - apply (proj2 (admission_uses_matching_allow_list demo_host
                    (AllowSet {["fs"]}) (AllowSet {["lodash"]}) AllowAll "lodash" demo_state)).
    reflexivity.
Defined.

Lemma wildcard_admits_every_name_witness :
  admitted demo_host demo_wildcard_opts "child_process" demo_state
  ∧ admitted demo_host
      {| allowedBuiltInModules := AllowSet ∅; allowedExternalModules := AllowAll |}
      "lodash" demo_state.
Proof.
  split.
  - apply (proj1 (wildcard_admits_every_name demo_host (AllowSet ∅) "child_process" demo_state)).
    reflexivity.
  - apply (proj2 (wildcard_admits_every_name demo_host (AllowSet ∅) "lodash" demo_state)).
    reflexivity.
Defined.

Lemma load_failure_propagates_unchanged_witness :
  createRequireResolver demo_host demo_wildcard_opts "net" demo_state
  = (Throw (HostError (VStr "MODULE_NOT_FOUND")),
     {| st_world := st_world demo_state; st_loads := ["net"] |}).
Proof.
  apply (proj1 (load_failure_propagates_unchanged demo_host demo_wildcard_opts "net" demo_state)
           (HostError (VStr "MODULE_NOT_FOUND")) (st_world demo_state)).
  - reflexivity.
  - reflexivity.
Defined.

Lemma only_child_process_is_wrapped_witness :
  (∃ wrapper,
     createRequireResolver demo_host demo_wildcard_opts "child_process" demo_state
     = (Ret (SecureChildProcess wrapper),
        {| st_world := st_world demo_state; st_loads := ["child_process"] |})
     ∧ (∀ op, wrapper !! op_name op = Some (Sanitizing op (VRef 5))
              ∧ wrapper !! op_name op
                ≠ Forwarded <$> own_props demo_heap (VRef 5) !! op_name op)
     ∧ (∀ name, (∀ op, name ≠ op_name op) →
          wrapper !! name = Forwarded <$> own_props demo_heap (VRef 5) !! name))
  ∧ createRequireResolver demo_host demo_opts "fs" demo_state
    = (Ret (RawModule (VRef 9)),
       {| st_world := st_world demo_state; st_loads := ["fs"] |}).
Proof.
  split.
  - apply (proj1 (only_child_process_is_wrapped demo_host demo_wildcard_opts
                    "child_process" demo_state (VRef 5) (st_world demo_state)
                    eq_refl eq_refl)).
    reflexivity.
  - apply (proj2 (only_child_process_is_wrapped demo_host demo_opts
                    "fs" demo_state (VRef 9) (st_world demo_state)
                    eq_refl eq_refl)).
    discriminate.
Defined.

Lemma delegated_options_always_carry_env_witness :
  ∃ lo le props cleaned st',
    secure_call demo_host Spawn (VRef 5) [VStr "ls"] demo_state
    = lift_host (host_call demo_host 0 [VStr "ls"; VUndefined; VRef lo]) st'
    ∧ heap (st_world st') !! lo = Some (OPlain props)
    ∧ props !! "env" = Some (VRef le)
    ∧ heap (st_world st') !! le = Some (OPlain cleaned)
    ∧ (∀ k, k ∈ SENSITIVE_ENV_VARS → cleaned !! k = None)
    ∧ (∀ k, cleaned !! k
            = if bool_decide (k ∈ SENSITIVE_ENV_VARS) then None else demo_env !! k).
Proof.
  destruct (delegated_options_always_carry_env demo_host Spawn (VRef 5) [VStr "ls"]
              demo_state 0 (demo_raw_operation Spawn))
    as (lo & le & props & cleaned & st' & Hcall & Hlo & Henv & Hle & Hclean & Hambient).
  exists lo, le, props, cleaned, st'. repeat (split; [assumption|]).
  apply Hambient. reflexivity.
Defined.

Lemma delegated_env_is_base_minus_secrets_witness :
  ∃ lo le props cleaned st',
    secure_call demo_host Spawn (VRef 5) [VStr "ls"; VUndefined; VRef 8] demo_state
    = lift_host (host_call demo_host 0 [VStr "ls"; VUndefined; VRef lo]) st'
    ∧ heap (st_world st') !! lo = Some (OPlain props)
    ∧ props !! "env" = Some (VRef le)
    ∧ heap (st_world st') !! le = Some (OPlain cleaned)
    ∧ (∀ k, cleaned !! k
            = if bool_decide (k ∈ SENSITIVE_ENV_VARS) then None
              else (<["SECRET" := VStr "x"]>
                     (<["ANTHROPIC_API_KEY" := VStr "sk-caller"]> ∅) : gmap string val) !! k).
Proof.
  destruct (delegated_env_is_base_minus_secrets demo_host Spawn (VRef 5)
              [VStr "ls"; VUndefined; VRef 8] demo_state 0
              (demo_raw_operation Spawn))
    as (lo & le & props & cleaned & st' & Hcall & Hlo & Henv & Hle & _ & Hsupplied).
  exists lo, le, props, cleaned, st'. repeat (split; [assumption|]).
  apply (Hsupplied 7); reflexivity.
Defined.

Lemma arguments_forwarded_by_position_witness :
  ∃ lo props st',
    secure_call demo_host Exec (VRef 5) [VStr "ls"; VRef 8; VRef 6] demo_state
    = lift_host (host_call demo_host 1 [VStr "ls"; VRef lo; VRef 6]) st'
    ∧ heap (st_world st') !! lo = Some (OPlain props)
    ∧ props !! "cwd" = Some (VStr "/tmp").
Proof.
  destruct (arguments_forwarded_by_position demo_host Exec (VRef 5)
              [VStr "ls"; VRef 8; VRef 6] demo_state 1 (demo_raw_operation Exec))
    as (lo & props & st' & Hcall & _ & _ & Hlo & Hprops & _).
  exists lo, props, st'. repeat (split; [assumption|]).
  rewrite Hprops; [reflexivity|discriminate].
Defined.

Lemma sanitizing_is_identity_on_clean_input_witness :
  ∃ l' st',
    stripSensitiveEnvVars (VRef 10) demo_state = (Ret (VRef l'), st')
    ∧ l' ≠ 10
    ∧ heap (st_world st') !! l' = Some (OPlain (<["HOME" := VStr "/home/runner"]> ∅))
    ∧ heap (st_world st') !! 10 = Some (OPlain (<["HOME" := VStr "/home/runner"]> ∅)).
Proof.
  apply (proj2 (sanitizing_is_identity_on_clean_input demo_state) 10).
  - reflexivity.
  - repeat constructor.
Defined.

(** Forwarding of callbacks in every invocation shape fails for
    [exec(command, callback)]: the callback is bound to [options], the
    [callback] parameter is [undefined], and the raw [exec] receives the
    command, the new options and [undefined]. *)
Lemma exec_with_two_arguments_drops_callback :
  ¬ forwards_callbacks demo_host Exec (VRef 5) [VStr "ls"; VRef 6] demo_state.
Proof.
  intros Hclaim.
  specialize (Hclaim (VRef 6) 1 [VStr "ls"; VRef 11; VUndefined]
                (grown (secure_objects (st_world demo_state) (VRef 6)) demo_state)).
  assert (VRef 6 ∈ [VStr "ls"; VRef 11; VUndefined]) as Hin.
  { apply Hclaim.
    - apply (bool_decide_eq_true_1 _). vm_compute. reflexivity.
    - reflexivity.
    - apply (secure_call_raw demo_host Exec (VRef 5) [VStr "ls"; VRef 6] demo_state 1
               (demo_raw_operation Exec)). }
  revert Hin. apply (bool_decide_eq_false_1 _). vm_compute. reflexivity.
Qed.

(** C1, at the failing input.  With the built-in allow-set the wildcard,
    [child_process] resolves to the wrapper; its member [execSync] is the
    raw module's own callable, and calling it with options whose [env]
    holds [ANTHROPIC_API_KEY] hands the raw [execSync] that very options
    object: nothing is allocated but the record of the call, and the
    [env] it reaches still holds the key. *)
Theorem execSync_reaches_raw_unsanitized :
  ∃ wrapper st1 r st2,
    createRequireResolver demo_host demo_wildcard_opts "child_process" demo_state
    = (Ret (SecureChildProcess wrapper), st1)
    ∧ wrapper !! "execSync" = Some (Forwarded (VRef 4))
    ∧ invoke_member demo_host wrapper "execSync" [VStr "printenv"; VRef 8] st1
      = (Ret (VRef r), st2)
    ∧ heap (st_world st2)
      = heap (st_world st1) ++ [OArray [VNum 4; VStr "printenv"; VRef 8]]
    ∧ heap (st_world st2) !! r = Some (OArray [VNum 4; VStr "printenv"; VRef 8])
    ∧ prop_of (heap (st_world st2)) (prop_of (heap (st_world st2)) (VRef 8) "env")
        "ANTHROPIC_API_KEY"
      = VStr "sk-caller".
Proof.
  eexists _, _, _, _.
  split; [vm_compute; reflexivity|].
  split; [vm_compute; reflexivity|].
  split; [vm_compute; reflexivity|].
  split; [vm_compute; reflexivity|].
  split; vm_compute; reflexivity.
Qed.

(** * Further properties *)

Section Further.

Context (host : Host).

Lemma createRequireResolver_loads (opts : RequireResolverOpts) (request : string)
    (st : state) :
  st_loads (createRequireResolver host opts request st).2
  = if isAllowed host opts request then st_loads st ++ [request] else st_loads st.
Proof.
  unfold createRequireResolver. destruct (isAllowed host opts request); cbn [negb]; [|done].
  unfold m_bind at 1. rewrite require_spec.
  destruct (host_require host request (st_world st)) as [[module|e] w]; [|done].
  by destruct (String.eqb request "child_process").
Qed.

(** X1. Over any sequence of requests, each resolved in the state the
    previous one left, the loader is handed exactly the requests that
    [isAllowed] admits, in order and once per request: nothing is cached
    and no denied request reaches the loader. *)
Theorem loader_sees_exactly_admitted_requests (opts : RequireResolverOpts)
    (requests : list string) (st : state) :
  st_loads (resolve_each host opts requests st)
  = st_loads st ++ List.filter (isAllowed host opts) requests.
Proof.
  revert st. induction requests as [|request rest IH]; intros st; cbn [resolve_each List.filter].
  - by rewrite app_nil_r.
  - rewrite IH, createRequireResolver_loads.
    destruct (isAllowed host opts request); [|done].
    by rewrite <-(assoc_L app).
Qed.

(** X2. When the member of the raw module under the operation's name is
    not a callable (the module has no such member, or is not an object),
    the wrapped operation throws [TypeError]: the two objects have been
    allocated, and no host function has run. *)
Theorem wrapped_call_without_raw_member_throws (op : spawn_op) (childProcess : val)
    (actuals : list val) (st : state) :
  live (heap (st_world st)) childProcess = true →
  live (heap (st_world st)) (prop_of (heap (st_world st)) childProcess (op_name op)) = true →
  callable (heap (st_world st)) (prop_of (heap (st_world st)) childProcess (op_name op))
  = false →
  secure_call host op childProcess actuals st
  = (Throw TypeError, grown (secure_objects (st_world st) (options_of op actuals)) st).
Proof.
  intros Hcp Hlive Hfn. rewrite secure_call_spec.
  unfold call_method, m_bind, get_prop, call_value.
  destruct st as [[h pe] ld]. cbn in *.
  rewrite prop_of_grown by done.
  destruct (prop_of h childProcess (op_name op)) as [| |b|n|s|l]; try done.
  cbn in Hlive, Hfn. apply bool_decide_eq_true_1 in Hlive.
  rewrite (lookup_app_l h _ l) by done.
  by destruct (h !! l) as [[props|elems|f]|].
Qed.

End Further.

(** X3. Sanitizing composes to itself: sanitizing the result of a
    sanitization allocates another mapping with the same content, and
    leaves the first result as it was. *)
Theorem sanitizing_twice_gives_same_content (env : val) (st : state) :
  ∃ l1 l2 st1 st2 cleaned,
    stripSensitiveEnvVars env st = (Ret (VRef l1), st1)
    ∧ stripSensitiveEnvVars (VRef l1) st1 = (Ret (VRef l2), st2)
    ∧ l1 ≠ l2
    ∧ heap (st_world st1) !! l1 = Some (OPlain cleaned)
    ∧ heap (st_world st2) !! l1 = Some (OPlain cleaned)
    ∧ heap (st_world st2) !! l2 = Some (OPlain cleaned).
Proof.
  assert (∀ k, k ∈ SENSITIVE_ENV_VARS →
            without_sensitive (env_base (st_world st) env) !! k = None) as Hclean.
  { intros k Hk. rewrite lookup_without_sensitive. by rewrite bool_decide_eq_true_2. }
  eexists _, _, _, _, (without_sensitive (env_base (st_world st) env)).
  split; [apply stripSensitiveEnvVars_spec|].
  split; [apply stripSensitiveEnvVars_spec|].
  revert Hclean. generalize (without_sensitive (env_base (st_world st) env)).
  intros cleaned Hclean. destruct st as [[h pe] ld].
  unfold grown, with_heap, env_base. cbn [st_world heap process_env truthy own_props].
  assert ((h ++ [OPlain cleaned]) !! length h = Some (OPlain cleaned)) as Hfirst
    by (by rewrite (lookup_app_r h _ (length h)), Nat.sub_diag by lia).
  rewrite Hfirst, (without_sensitive_clean cleaned Hclean).
  split; [rewrite length_app; cbn; lia|].
  split; [done|].
  split; [by rewrite lookup_app_l by (rewrite length_app; cbn; lia)|].
  by rewrite (lookup_app_r _ _ (length (h ++ [OPlain cleaned]))), Nat.sub_diag by lia.
Qed.

Section Composition.

Context (host : Host).

(** X4. End to end: once [child_process] is admitted and loaded, calling
    any of the four operations on the handle the resolver returned reaches
    the raw operation of the loaded module with, in the options position, a
    new object whose [env] is a new mapping without the three sensitive
    keys. *)
Theorem resolved_child_process_operations_sanitize (opts : RequireResolverOpts)
    (st : state) (module : val) (w : world) (op : spawn_op) (f : fnid)
    (actuals : list val) :
  isAllowed host opts "child_process" = true →
  host_require host "child_process" (st_world st) = (Ret module, w) →
  raw_operation (heap w) module (op_name op) f →
  ∃ wrapper st1 lo le props cleaned st2,
    createRequireResolver host opts "child_process" st
    = (Ret (SecureChildProcess wrapper), st1)
    ∧ invoke_member host wrapper (op_name op) actuals st1
      = lift_host (host_call host f (delegated_args op actuals (VRef lo))) st2
    ∧ heap w !! lo = None
    ∧ heap (st_world st2) !! lo = Some (OPlain props)
    ∧ props !! "env" = Some (VRef le)
    ∧ heap w !! le = None
    ∧ heap (st_world st2) !! le = Some (OPlain cleaned)
    ∧ (∀ k, k ∈ SENSITIVE_ENV_VARS → cleaned !! k = None).
Proof.
  intros Hadm Hload Hraw.
  set (st1 := {| st_world := w; st_loads := st_loads st ++ ["child_process"] |}).
  destruct (createSecureChildProcessWrapper_state module st1)
    as (wrapper & Hrun & Hops & _).
  exists wrapper, st1. eexists _, _, _, _, _.
  split.
  { rewrite (createRequireResolver_loaded _ _ _ _ _ _ Hadm Hload).
    cbn [String.eqb Ascii.eqb Bool.eqb]. fold st1. unfold m_bind. by rewrite Hrun. }
  split.
  { unfold invoke_member. rewrite Hops. by apply secure_call_raw. }
  split; [by apply lookup_ge_None_2|].
  split; [apply grown_pair_lookup|].
  split; [apply lookup_insert_eq|].
  split; [apply lookup_ge_None_2; cbn; lia|].
  split; [apply grown_pair_lookup|].
  intros k Hk. by apply delegated_env_sensitive.
Qed.

(** X5. A member of the raw module other than the four is fixed when the
    wrapper is built: calling it on the wrapper, in whatever later state,
    is calling the value the raw module had under that name at that time,
    on the very same arguments. *)
Theorem other_members_are_called_unchanged (childProcess : val)
    (wrapper : gmap string member) (name : string) (v : val) (actuals : list val)
    (st st' later : state) :
  createSecureChildProcessWrapper childProcess st = (Ret wrapper, st') →
  name ∉ ["spawn"; "exec"; "execFile"; "fork"] →
  own_props (heap (st_world st)) childProcess !! name = Some v →
  invoke_member host wrapper name actuals later = call_value host v actuals later.
Proof.
  intros Hrun Hname Hv.
  destruct (createSecureChildProcessWrapper_state childProcess st)
    as (wrapper' & Hrun' & _ & Hrest).
  rewrite Hrun' in Hrun. injection Hrun as <- _.
  unfold invoke_member. rewrite Hrest.
  - by rewrite Hv.
  - intros op ->. apply Hname. destruct op; cbn [op_name]; by apply (bool_decide_unpack _).
Qed.

(** X8. The wrapper keeps the whole surface of the raw module and always
    has the four operations: its member names are those of the raw module
    together with [spawn], [exec], [execFile] and [fork], also when the raw
    module lacks some of them. *)
Theorem wrapper_surface (childProcess : val) (st : state) :
  ∃ wrapper,
    createSecureChildProcessWrapper childProcess st = (Ret wrapper, st)
    ∧ dom wrapper
      = dom (own_props (heap (st_world st)) childProcess)
        ∪ {[ "spawn"; "exec"; "execFile"; "fork" ]}.
Proof.
  eexists. split; [reflexivity|].
  rewrite !dom_insert_L, dom_fmap_L. apply set_eq. intros name.
  rewrite !elem_of_union, !elem_of_singleton. tauto.
Qed.

(** X9. Admission is monotone in the policy: a request admitted under one
    pair of allow-sets is admitted under any pair that permits at least as
    much, the wildcard permitting everything. *)
Theorem admission_is_monotone (opts opts' : RequireResolverOpts) (request : string) :
  allow_le (allowedBuiltInModules opts) (allowedBuiltInModules opts') →
  allow_le (allowedExternalModules opts) (allowedExternalModules opts') →
  isAllowed host opts request = true →
  isAllowed host opts' request = true.
Proof.
  assert (∀ a b, allow_le a b →
            checkIsAllowed a request = true → checkIsAllowed b request = true) as Hmono.
  { intros [|names] [|names']; cbn; try done.
    intros Hsub Hin%bool_decide_eq_true_1. apply bool_decide_eq_true_2. by apply Hsub. }
  intros Hb He. unfold isAllowed. destruct (isBuiltin host request); by apply Hmono.
Qed.

End Composition.

(** X6. A truthy [env] without own properties (an empty object, [true], a
    non-zero number, a callable) is not taken for a missing one: the
    sanitized mapping is empty, whatever the ambient environment holds. *)
Theorem truthy_env_without_properties_gives_empty_mapping (env : val) (st : state) :
  truthy env = true →
  own_props (heap (st_world st)) env = ∅ →
  stripSensitiveEnvVars env st
  = (Ret (VRef (length (heap (st_world st)))), grown [OPlain ∅] st).
Proof.
  intros Htruthy Hempty. rewrite stripSensitiveEnvVars_spec.
  unfold env_base. rewrite Htruthy, Hempty.
  rewrite without_sensitive_clean; [done|]. intros k _. apply lookup_empty.
Qed.

(** X7. Every construction of the options allocates its own two objects:
    two constructions in a row give four distinct new locations, and the
    second leaves the options and the mapping of the first as they were. *)
Theorem secureOptions_allocates_per_call (options1 options2 : val) (st : state) :
  ∃ l1 l2 st1 st2 o1 e1,
    secureOptions options1 st = (Ret (VRef l1), st1)
    ∧ secureOptions options2 st1 = (Ret (VRef l2), st2)
    ∧ heap (st_world st) !! l1 = None
    ∧ heap (st_world st1) !! l2 = None
    ∧ heap (st_world st1) !! l1 = Some (OPlain o1)
    ∧ heap (st_world st2) !! l1 = Some (OPlain o1)
    ∧ o1 !! "env" = Some (VRef (S l1))
    ∧ heap (st_world st1) !! S l1 = Some (OPlain e1)
    ∧ heap (st_world st2) !! S l1 = Some (OPlain e1)
    ∧ l2 = S (S l1)
    ∧ prop_of (heap (st_world st2)) (VRef l2) "env" = VRef (S l2).
Proof.
  eexists _, _, _, _, _, _.
  split; [apply secureOptions_spec|].
  split; [apply secureOptions_spec|].
  split; [by apply lookup_ge_None_2|].
  split; [by apply lookup_ge_None_2|].
  split; [apply grown_pair_lookup|].
  split; [apply grown_preserves, grown_pair_lookup|].
  split; [apply lookup_insert_eq|].
  split; [apply grown_pair_lookup|].
  split; [apply grown_preserves, grown_pair_lookup|].
  split.
  - destruct st as [[h pe] ld]. cbn. rewrite length_app. cbn. lia.
  - unfold prop_of, own_props.
    set (st1 := grown (secure_objects (st_world st) options1) st).
    unfold secure_objects.
    rewrite (proj1 (grown_pair_lookup _ _ st1)). by rewrite lookup_insert_eq.
Qed.

(** ** The further properties at the concrete host *)

Lemma wrapped_call_without_raw_member_throws_witness :
  secure_call demo_host Fork (VRef 9) [VStr "worker.js"] demo_state
  = (Throw TypeError, grown (secure_objects (st_world demo_state) VUndefined) demo_state).
Proof.
  apply (wrapped_call_without_raw_member_throws demo_host Fork (VRef 9)
           [VStr "worker.js"] demo_state); reflexivity.
Defined.

Lemma resolved_child_process_operations_sanitize_witness :
  ∃ wrapper st1 lo le props cleaned st2,
    createRequireResolver demo_host demo_wildcard_opts "child_process" demo_state
    = (Ret (SecureChildProcess wrapper), st1)
    ∧ invoke_member demo_host wrapper "spawn" [VStr "ls"; VUndefined; VRef 8] st1
      = lift_host (host_call demo_host 0 [VStr "ls"; VUndefined; VRef lo]) st2
    ∧ demo_heap !! lo = None
    ∧ heap (st_world st2) !! lo = Some (OPlain props)
    ∧ props !! "env" = Some (VRef le)
    ∧ demo_heap !! le = None
    ∧ heap (st_world st2) !! le = Some (OPlain cleaned)
    ∧ (∀ k, k ∈ SENSITIVE_ENV_VARS → cleaned !! k = None).
Proof.
  apply (resolved_child_process_operations_sanitize demo_host demo_wildcard_opts
           demo_state (VRef 5) (st_world demo_state) Spawn 0
           [VStr "ls"; VUndefined; VRef 8]).
  - reflexivity.
  - reflexivity.
  - apply (demo_raw_operation Spawn).
Defined.

Lemma other_members_are_called_unchanged_witness :
  ∃ wrapper,
    createSecureChildProcessWrapper (VRef 5) demo_state = (Ret wrapper, demo_state)
    ∧ invoke_member demo_host wrapper "execSync" [VStr "id"] demo_state
      = call_value demo_host (VRef 4) [VStr "id"] demo_state.
Proof.
  eexists. split; [reflexivity|].
  apply (other_members_are_called_unchanged demo_host (VRef 5) _ "execSync" (VRef 4)
           [VStr "id"] demo_state demo_state demo_state).
  - reflexivity.
  - apply (bool_decide_eq_false_1 _). vm_compute. reflexivity.
  - reflexivity.
Defined.

Lemma truthy_env_without_properties_gives_empty_mapping_witness :
  stripSensitiveEnvVars (VRef 9) demo_state
  = (Ret (VRef 11), grown [OPlain ∅] demo_state).
Proof.
  apply (truthy_env_without_properties_gives_empty_mapping (VRef 9) demo_state);
    reflexivity.
Defined.

Lemma admission_is_monotone_witness :
  isAllowed demo_host
    {| allowedBuiltInModules := AllowAll;
       allowedExternalModules := AllowSet {[ "lodash"; "axios" ]} |} "fs"
  = true.
Proof.
  apply (admission_is_monotone demo_host demo_opts).
  - exact I.
  - cbn. apply (bool_decide_unpack _). vm_compute. exact I.
  - reflexivity.
Defined.

(** ** The positional binding at its failing inputs

    The four wrapped operations bind their arguments to fixed positions.
    [child_process] documents shorter call shapes, in which the options or
    the callback sit one position earlier. *)

(** C2, at the failing input [fork("m.js", options)], where [options.env]
    holds [SECRET] and [ANTHROPIC_API_KEY].  The options are bound to
    [args], so the wrapper sanitizes the ambient environment instead: the
    raw [fork] receives the caller's own options second, their [env] still
    holding the key, and third a new object whose [env] is the ambient
    environment without the sensitive keys, not the supplied mapping
    without them. *)
Theorem fork_with_options_second_keeps_supplied_env :
  ∃ r st',
    secure_call demo_host Fork (VRef 5) [VStr "m.js"; VRef 8] demo_state
    = (Ret (VRef r), st')
    ∧ heap (st_world st') !! r = Some (OArray [VNum 3; VStr "m.js"; VRef 8; VRef 11])
    ∧ prop_of (heap (st_world st')) (VRef 8) "env" = VRef 7
    ∧ own_props (heap (st_world st')) (VRef 7)
      = (<["SECRET" := VStr "x"]> (<["ANTHROPIC_API_KEY" := VStr "sk-caller"]> ∅))
    ∧ prop_of (heap (st_world st')) (VRef 11) "env" = VRef 12
    ∧ own_props (heap (st_world st')) (VRef 12) = {["PATH" := VStr "/usr/bin"]}
    ∧ own_props (heap (st_world st')) (VRef 12)
      ≠ without_sensitive (own_props (heap (st_world st')) (VRef 7)).
Proof.
  eexists _, _.
  split; [vm_compute; reflexivity|].
  split; [vm_compute; reflexivity|].
  split; [vm_compute; reflexivity|].
  split; [vm_compute; reflexivity|].
  split; [vm_compute; reflexivity|].
  split; [vm_compute; reflexivity|].
  intros Heq. apply (f_equal (fun m => m !! "SECRET")) in Heq.
  vm_compute in Heq. discriminate Heq.
Qed.

(** C6, at the failing input [exec("ls", callback)].  The callback is bound
    to [options] and the [callback] parameter is [undefined]: the raw [exec]
    receives the command, a new options object and [undefined], and the
    caller's callable is nowhere among its arguments. *)
Theorem exec_callback_is_dropped :
  ∃ r st',
    callable demo_heap (VRef 6) = true
    ∧ secure_call demo_host Exec (VRef 5) [VStr "ls"; VRef 6] demo_state
      = (Ret (VRef r), st')
    ∧ heap (st_world st') !! r = Some (OArray [VNum 1; VStr "ls"; VRef 11; VUndefined])
    ∧ (VRef 6 ∉ [VStr "ls"; VRef 11; VUndefined])
    ∧ own_props (heap (st_world st')) (VRef 11) = {["env" := VRef 12]}.
Proof.
  eexists _, _.
  split; [reflexivity|].
  split; [vm_compute; reflexivity|].
  split; [vm_compute; reflexivity|].
  split; [apply (bool_decide_eq_false_1 _); vm_compute; reflexivity|].
  vm_compute. reflexivity.
Qed.

(** C10, at the failing input [spawn("printenv", options)], where [options]
    carries a working directory and no [env].  The options are bound to
    [args]: the raw [spawn] receives the caller's own options second, as
    they are and without an [env] entry, and the object with the sanitized
    [env] only third. *)
Theorem spawn_with_options_second_delegates_options_without_env :
  ∃ r st',
    secure_call demo_host Spawn (VRef 5) [VStr "printenv"; VRef 11] demo_cwd_state
    = (Ret (VRef r), st')
    ∧ heap (st_world st') !! r
      = Some (OArray [VNum 0; VStr "printenv"; VRef 11; VRef 12])
    ∧ own_props (heap (st_world st')) (VRef 11) = {["cwd" := VStr "/tmp"]}
    ∧ own_props (heap (st_world st')) (VRef 11) !! "env" = None
    ∧ own_props (heap (st_world st')) (VRef 12) = {["env" := VRef 13]}
    ∧ process_env (st_world st') !! "ANTHROPIC_API_KEY" = Some (VStr "sk-ambient").
Proof.
  eexists _, _.
  split; [vm_compute; reflexivity|].
  split; [vm_compute; reflexivity|].
  split; [vm_compute; reflexivity|].
  split; [vm_compute; reflexivity|].
  split; vm_compute; reflexivity.
Qed.
